(** * TCG2 protocol bindings (uefi/src/proto/tcg/v2.rs): a shallow embedding

    The data types of the TPM 2.0 TCG protocol, their [repr(C)] layout, the
    default capability value, and the four safe wrappers of [impl Tcg] over
    the firmware's function table, with firmware state passed explicitly. *)

From Stdlib Require Import ZArith List String Bool Lia.
Import ListNotations.
Set Warnings "-register-all".
Open Scope string_scope.
Open Scope list_scope.
Open Scope Z_scope.

(** ** Machine integers *)

Definition u8 := Z.
Definition u16 := Z.
Definition u32 := Z.
Definition u64 := Z.
Definition usize := Z.

(** [u8::try_from(usize)]: fails when the value does not fit in 8 bits. *)
Definition u8_try_from (n : usize) : option u8 :=
  if (0 <=? n) && (n <=? 255) then Some n else None.

(** ** Layout of [repr(C)] types *)

Inductive Prim := PU8 | PU16 | PU32 | PU64.

Definition prim_size (p : Prim) : Z :=
  match p with PU8 => 1 | PU16 => 2 | PU32 => 4 | PU64 => 8 end.

(** A type is a primitive or a struct with named fields in declaration
    order; a [repr(transparent)] bitflags type is a struct with one field
    [bits] of its underlying integer type. *)
Inductive Ty :=
| TPrim (p : Prim)
| TStruct (fields : list (string * Ty)).

Definition align_up (off a : Z) : Z := ((off + a - 1) / a) * a.

Fixpoint ty_align (t : Ty) : Z :=
  match t with
  | TPrim p => prim_size p
  | TStruct fs =>
      (fix go (fs : list (string * Ty)) : Z :=
         match fs with
         | [] => 1
         | (_, f) :: r => Z.max (ty_align f) (go r)
         end) fs
  end.

(** [repr(C)]: each field at the next offset aligned for it, the size
    rounded up to the struct's alignment. *)
Fixpoint ty_size (t : Ty) : Z :=
  match t with
  | TPrim p => prim_size p
  | TStruct fs =>
      align_up
        ((fix go (off : Z) (fs : list (string * Ty)) : Z :=
            match fs with
            | [] => off
            | (_, f) :: r => go (align_up off (ty_align f) + ty_size f) r
            end) 0 fs)
        (ty_align t)
  end.

(** Width in bits of a type's encoding ([8 * size_of]). *)
Definition bit_width (t : Ty) : Z := 8 * ty_size t.

Definition fields_of (t : Ty) : list (string * Ty) :=
  match t with TPrim _ => [] | TStruct fs => fs end.

(** [struct Version { major: u8, minor: u8 }] *)
Definition Version_ty : Ty :=
  TStruct [("major", TPrim PU8); ("minor", TPrim PU8)].

(** Modelled from the spec: [HashAlgorithm] is declared in the parent
    module [proto::tcg], which is not under src/; the spec (section 6) gives
    it as a 32-bit hash-algorithm bitmap, a transparent bitflags over [u32]. *)
Definition HashAlgorithm_ty : Ty := TStruct [("bits", TPrim PU32)].

(** [bitflags! { #[repr(transparent)] struct EventLogFormat: u32 }] *)
Definition EventLogFormat_ty : Ty := TStruct [("bits", TPrim PU32)].

(** [bitflags! { #[repr(transparent)] struct HashLogExtendEventFlags: u64 }] *)
Definition HashLogExtendEventFlags_ty : Ty := TStruct [("bits", TPrim PU64)].

(** [#[repr(C)] struct BootServiceCapability] *)
Definition BootServiceCapability_ty : Ty :=
  TStruct
    [("size", TPrim PU8);
     ("structure_version", Version_ty);
     ("protocol_version", Version_ty);
     ("hash_algorithm_bitmap", HashAlgorithm_ty);
     ("supported_event_logs", EventLogFormat_ty);
     ("present_flag", TPrim PU8);
     ("max_command_size", TPrim PU16);
     ("max_response_size", TPrim PU16);
     ("manufacturer_id", TPrim PU32);
     ("number_of_pcr_banks", TPrim PU32);
     ("active_pcr_banks", HashAlgorithm_ty)].

(** [mem::size_of::<BootServiceCapability>()] *)
Definition size_of_BootServiceCapability : usize := ty_size BootServiceCapability_ty.

(** ** Values *)

Record Version := mkVersion { major : u8; minor : u8 }.

(** [#[derive(Default)]] on [Version]. *)
Definition Version_default : Version := mkVersion 0 0.

(** [#[derive(PartialOrd, Ord)]] on [Version]: fields compared in
    declaration order, the first unequal one deciding. *)
Definition Version_cmp (a b : Version) : comparison :=
  match Z.compare (major a) (major b) with
  | Eq => Z.compare (minor a) (minor b)
  | o => o
  end.

Definition Version_lt (a b : Version) : Prop := Version_cmp a b = Lt.

(** Bitflags values are their [bits]; their [Default] is [empty()]. *)
Definition HashAlgorithm := u32.
Definition EventLogFormat := u32.
Definition HashLogExtendEventFlags := u64.
Definition HashAlgorithm_empty : HashAlgorithm := 0.
Definition EventLogFormat_default : EventLogFormat := 0.
Definition HashAlgorithm_default : HashAlgorithm := HashAlgorithm_empty.

Record BootServiceCapability := mkBootServiceCapability {
  size : u8;
  structure_version : Version;
  protocol_version : Version;
  hash_algorithm_bitmap : HashAlgorithm;
  supported_event_logs : EventLogFormat;
  present_flag : u8;
  max_command_size : u16;
  max_response_size : u16;
  manufacturer_id : u32;
  number_of_pcr_banks : u32;
  active_pcr_banks : HashAlgorithm
}.

(** [impl Default for BootServiceCapability]: [None] is the panic of
    [unwrap] on a failed [u8::try_from]. *)
Definition BootServiceCapability_default : option BootServiceCapability :=
  match u8_try_from size_of_BootServiceCapability with
  | None => None
  | Some struct_size =>
      Some {| size := struct_size;
              structure_version := Version_default;
              protocol_version := Version_default;
              hash_algorithm_bitmap := HashAlgorithm_default;
              supported_event_logs := EventLogFormat_default;
              present_flag := 0;
              max_command_size := 0;
              max_response_size := 0;
              manufacturer_id := 0;
              number_of_pcr_banks := 0;
              active_pcr_banks := HashAlgorithm_default |}
  end.

(** [BootServiceCapability::tpm_present] *)
Definition tpm_present (c : BootServiceCapability) : bool :=
  negb (present_flag c =? 0).

(** ** Status codes and results *)

(** [Status] is a [usize] newtype; [Status::SUCCESS] is 0. *)
Definition Status := usize.
Definition SUCCESS : Status := 0.

(** [crate::Result<T>]: a value, or an error carrying the status. *)
Inductive Result (A : Type) : Type :=
| Ok (a : A)
| Err (status : Status).
Arguments Ok {A} a.
Arguments Err {A} status.

(** Modelled from the spec: [Status::into_with_val] (and the [From<Status>]
    conversion to [Result<()>] built on it) live in the crate's result
    module, which is not under src/. The spec (sections 6 and 7) splits a
    status into the value channel and the error channel: the value is
    produced, lazily, only for a success status, any other status becomes
    an error carrying it. *)
Definition into_with_val {A : Type} (status : Status) (val : unit -> A) : Result A :=
  if status =? SUCCESS then Ok (val tt) else Err status.

(** [impl From<Status> for Result]: [status.into()]. *)
Definition status_into (status : Status) : Result unit :=
  into_with_val status (fun _ => tt).

(** ** The firmware function table [struct Tcg] *)

Definition PhysicalAddress := u64.

(** The seven entry points of the table, in declaration order. *)
Inductive EntryPoint :=
| EP_get_capability
| EP_get_event_log
| EP_hash_log_extend_event
| EP_submit_command
| EP_get_active_pcr_banks
| EP_set_active_pcr_banks
| EP_get_result_of_set_active_pcr_banks.

Definition entry_point_name (e : EntryPoint) : string :=
  match e with
  | EP_get_capability => "get_capability"
  | EP_get_event_log => "get_event_log"
  | EP_hash_log_extend_event => "hash_log_extend_event"
  | EP_submit_command => "submit_command"
  | EP_get_active_pcr_banks => "get_active_pcr_banks"
  | EP_set_active_pcr_banks => "set_active_pcr_banks"
  | EP_get_result_of_set_active_pcr_banks => "get_result_of_set_active_pcr_banks"
  end.

Definition entry_points : list EntryPoint :=
  [EP_get_capability; EP_get_event_log; EP_hash_log_extend_event;
   EP_submit_command; EP_get_active_pcr_banks; EP_set_active_pcr_banks;
   EP_get_result_of_set_active_pcr_banks].

(** The function pointers of [struct Tcg] over a firmware state [S]. A
    pointer argument ([*mut T]) is passed in with the value the caller
    stored there and handed back with the value the firmware left there. *)
Record TcgTable (S : Type) := mkTcgTable {
  get_capability_fn :
    S -> BootServiceCapability -> Status * BootServiceCapability * S;
  get_event_log_fn :
    S -> EventLogFormat -> PhysicalAddress -> PhysicalAddress -> u8 ->
    Status * PhysicalAddress * PhysicalAddress * u8 * S;
  hash_log_extend_event_fn :
    S -> HashLogExtendEventFlags -> PhysicalAddress -> u64 -> PhysicalAddress ->
    Status * S;
  submit_command_fn :
    S -> u32 -> list u8 -> u32 -> list u8 -> Status * list u8 * S;
  get_active_pcr_banks_fn :
    S -> HashAlgorithm -> Status * HashAlgorithm * S;
  set_active_pcr_banks_fn :
    S -> HashAlgorithm -> Status * S;
  get_result_of_set_active_pcr_banks_fn :
    S -> u32 -> u32 -> Status * u32 * u32 * S
}.
Arguments mkTcgTable {S}.
Arguments get_capability_fn {S}.
Arguments get_event_log_fn {S}.
Arguments hash_log_extend_event_fn {S}.
Arguments submit_command_fn {S}.
Arguments get_active_pcr_banks_fn {S}.
Arguments set_active_pcr_banks_fn {S}.
Arguments get_result_of_set_active_pcr_banks_fn {S}.

(** ** Calls through the table

    A computation threads the firmware state, records the entry points it
    calls, and may panic ([None]). *)
Definition FW (S A : Type) : Type := S -> option (A * S * list EntryPoint).

Definition fw_ret {S A : Type} (a : A) : FW S A := fun s => Some (a, s, []).

Definition fw_bind {S A B : Type} (m : FW S A) (k : A -> FW S B) : FW S B :=
  fun s =>
    match m s with
    | None => None
    | Some (a, s1, t1) =>
        match k a s1 with
        | None => None
        | Some (b, s2, t2) => Some (b, s2, t1 ++ t2)
        end
    end.

Definition fw_panic {S A : Type} : FW S A := fun _ => None.

(** [.unwrap()] *)
Definition fw_unwrap {S A : Type} (o : option A) : FW S A :=
  match o with Some a => fw_ret a | None => fw_panic end.

(** An [unsafe] call of the function pointer [e]. *)
Definition fw_call {S R : Type} (e : EntryPoint) (f : S -> R * S) : FW S R :=
  fun s => let (r, s') := f s in Some (r, s', [e]).

Notation "x <- m ;; k" := (fw_bind m (fun x => k))
  (at level 61, m at next level, right associativity).
Notation "' p <- m ;; k" := (fw_bind m (fun x => match x with p => k end))
  (at level 61, p pattern, m at next level, right associativity).

(** ** [impl Tcg] *)

Section Wrappers.
Context {S : Type} (this : TcgTable S).

(** [Tcg::get_capability]: [BootServiceCapability::default()] is the
    buffer handed to the firmware. *)
Definition get_capability : FW S (Result BootServiceCapability) :=
  capability <- fw_unwrap BootServiceCapability_default ;;
  '(status, capability) <-
     fw_call EP_get_capability (fun s => get_capability_fn this s capability) ;;
  fw_ret (into_with_val status (fun _ => capability)).

(** [Tcg::get_active_pcr_banks] *)
Definition get_active_pcr_banks : FW S (Result HashAlgorithm) :=
  let active_pcr_banks := HashAlgorithm_empty in
  '(status, active_pcr_banks) <-
     fw_call EP_get_active_pcr_banks
       (fun s => get_active_pcr_banks_fn this s active_pcr_banks) ;;
  fw_ret (into_with_val status (fun _ => active_pcr_banks)).

(** [Tcg::set_active_pcr_banks] *)
Definition set_active_pcr_banks (active_pcr_banks : HashAlgorithm)
  : FW S (Result unit) :=
  status <-
    fw_call EP_set_active_pcr_banks
      (fun s => set_active_pcr_banks_fn this s active_pcr_banks) ;;
  fw_ret (status_into status).

(** [Tcg::get_result_of_set_active_pcr_banks] *)
Definition get_result_of_set_active_pcr_banks : FW S (Result (option u32)) :=
  let operation_present := 0 in
  let response := 0 in
  '(status, operation_present, response) <-
     fw_call EP_get_result_of_set_active_pcr_banks
       (fun s => get_result_of_set_active_pcr_banks_fn this s operation_present response) ;;
  fw_ret (into_with_val status (fun _ =>
            if operation_present =? 0 then None else Some response)).

End Wrappers.

(** The public methods of [impl Tcg], in declaration order. *)
Inductive Method :=
| M_get_capability
| M_get_active_pcr_banks
| M_set_active_pcr_banks
| M_get_result_of_set_active_pcr_banks.

Definition method_name (m : Method) : string :=
  match m with
  | M_get_capability => "get_capability"
  | M_get_active_pcr_banks => "get_active_pcr_banks"
  | M_set_active_pcr_banks => "set_active_pcr_banks"
  | M_get_result_of_set_active_pcr_banks => "get_result_of_set_active_pcr_banks"
  end.

Definition public_methods : list Method :=
  [M_get_capability; M_get_active_pcr_banks; M_set_active_pcr_banks;
   M_get_result_of_set_active_pcr_banks].

(** The entry points a run of a computation calls. *)
Definition trace_of {S A : Type} (m : FW S A) (s : S) : option (list EntryPoint) :=
  match m s with None => None | Some (_, _, t) => Some t end.

(** The result a computation returns, forgetting state and calls. *)
Definition fw_result {S A : Type} (m : FW S A) (s : S) : option A :=
  match m s with None => None | Some (a, _, _) => Some a end.

(** [set_active_pcr_banks] followed by [get_active_pcr_banks] on the same
    instance, within one boot. *)
Definition set_then_get {S : Type} (this : TcgTable S) (requested : HashAlgorithm)
  : FW S (Result unit * Result HashAlgorithm) :=
  r1 <- set_active_pcr_banks this requested ;;
  r2 <- get_active_pcr_banks this ;;
  fw_ret (r1, r2).

(** ** Derived orderings and field offsets *)

(** One step of a derived [partial_cmp]: the first field that compares
    unequal decides. *)
Definition then_cmp (c1 c2 : comparison) : comparison :=
  match c1 with Eq => c2 | o => o end.

(** [#[derive(PartialOrd, Ord)]] on [BootServiceCapability]: all fields,
    the private [size] and [present_flag] included, in declaration order;
    the bitflags fields compare by their bits. *)
Definition BootServiceCapability_cmp (a b : BootServiceCapability) : comparison :=
  then_cmp (Z.compare (size a) (size b))
  (then_cmp (Version_cmp (structure_version a) (structure_version b))
  (then_cmp (Version_cmp (protocol_version a) (protocol_version b))
  (then_cmp (Z.compare (hash_algorithm_bitmap a) (hash_algorithm_bitmap b))
  (then_cmp (Z.compare (supported_event_logs a) (supported_event_logs b))
  (then_cmp (Z.compare (present_flag a) (present_flag b))
  (then_cmp (Z.compare (max_command_size a) (max_command_size b))
  (then_cmp (Z.compare (max_response_size a) (max_response_size b))
  (then_cmp (Z.compare (manufacturer_id a) (manufacturer_id b))
  (then_cmp (Z.compare (number_of_pcr_banks a) (number_of_pcr_banks b))
            (Z.compare (active_pcr_banks a) (active_pcr_banks b))))))))))).

(** Byte offset of each field under [repr(C)], as [ty_size] places them. *)
Fixpoint offsets_from (off : Z) (fs : list (string * Ty)) : list (string * Z) :=
  match fs with
  | [] => []
  | (n, f) :: r =>
      let o := align_up off (ty_align f) in (n, o) :: offsets_from (o + ty_size f) r
  end.

Definition field_offsets (t : Ty) : list (string * Z) := offsets_from 0 (fields_of t).

(** Sum of the field sizes, without padding. *)
Definition fields_size (t : Ty) : Z :=
  fold_right (fun '(_, f) acc => ty_size f + acc) 0 (fields_of t).

(** ** Reading of the spec, to compare with the code *)

(** The outcome classes the spec names for a reconfiguration response
    code (section 3 and property 4). *)
Inductive SpecResponseClass :=
| RC_Success
| RC_TpmError
| RC_CancelledOrTimeout
| RC_FirmwareError
| RC_Unrecognized.

Definition spec_classify (c : u32) : SpecResponseClass :=
  if c =? 0 then RC_Success
  else if (1 <=? c) && (c <=? 0xFFF) then RC_TpmError
  else if c =? 0xFFFFFFF0 then RC_CancelledOrTimeout
  else if c =? 0xFFFFFFF1 then RC_FirmwareError
  else RC_Unrecognized.

(** ** Sample firmware instances *)

(** A firmware over no state whose entry points all succeed, leaving the
    out-parameters as they were, except that the stored reconfiguration
    result is [(operation_present, response)]. *)
Definition result_table (operation_present response : u32) : TcgTable unit :=
  mkTcgTable
    (fun s cap => (SUCCESS, cap, s))
    (fun s _ loc last tr => (SUCCESS, loc, last, tr, s))
    (fun s _ _ _ _ => (SUCCESS, s))
    (fun s _ _ _ out => (SUCCESS, out, s))
    (fun s b => (SUCCESS, b, s))
    (fun s _ => (SUCCESS, s))
    (fun s _ _ => (SUCCESS, operation_present, response, s)).

(** A firmware whose state is the active bank set and which applies a
    [set_active_pcr_banks] request at once. *)
Definition immediate_table : TcgTable HashAlgorithm :=
  mkTcgTable
    (fun s cap => (SUCCESS, cap, s))
    (fun s _ loc last tr => (SUCCESS, loc, last, tr, s))
    (fun s _ _ _ _ => (SUCCESS, s))
    (fun s _ _ _ out => (SUCCESS, out, s))
    (fun s _ => (SUCCESS, s, s))
    (fun _ requested => (SUCCESS, requested))
    (fun s _ _ => (SUCCESS, 0, 0, s)).

(** A firmware whose state is (active set, pending request) and which only
    records a [set_active_pcr_banks] request, for a later reset. *)
Definition staging_table : TcgTable (HashAlgorithm * option HashAlgorithm) :=
  mkTcgTable
    (fun s cap => (SUCCESS, cap, s))
    (fun s _ loc last tr => (SUCCESS, loc, last, tr, s))
    (fun s _ _ _ _ => (SUCCESS, s))
    (fun s _ _ _ out => (SUCCESS, out, s))
    (fun s _ => (SUCCESS, fst s, s))
    (fun s requested => (SUCCESS, (fst s, Some requested)))
    (fun s _ _ => (SUCCESS, 0, 0, s)).

(** A status and a value agree with a result: the value for success,
    an error carrying the status otherwise. *)
Definition result_matches {A : Type} (status : Status) (v : A) (r : Result A) : Prop :=
  (status = SUCCESS /\ r = Ok v) \/ (status <> SUCCESS /\ r = Err status).

(** A firmware over no state whose entry points all succeed and write
    nothing: every out-parameter keeps the value the caller stored. *)
Definition silent_table : TcgTable unit :=
  mkTcgTable
    (fun s cap => (SUCCESS, cap, s))
    (fun s _ loc last tr => (SUCCESS, loc, last, tr, s))
    (fun s _ _ _ _ => (SUCCESS, s))
    (fun s _ _ _ out => (SUCCESS, out, s))
    (fun s b => (SUCCESS, b, s))
    (fun s _ => (SUCCESS, s))
    (fun s op response => (SUCCESS, op, response, s)).

(** ** Checks on small inputs *)

Example size_of_capability_36 : size_of_BootServiceCapability = 36.
Proof. reflexivity. Qed.

Example get_result_code_passes_through :
  fw_result (get_result_of_set_active_pcr_banks (result_table 1 0xFFFFFFF0)) tt
  = Some (Ok (Some 0xFFFFFFF0)).
Proof. reflexivity. Qed.

Example staging_keeps_previous :
  fw_result (set_then_get staging_table 2) (1, None) = Some (Ok tt, Ok 1).
Proof. reflexivity. Qed.

(** ** Claims *)

Lemma into_with_val_matches {A : Type} (status : Status) (v : A) :
  result_matches status v (into_with_val status (fun _ => v)).
Proof.
  unfold result_matches, into_with_val, SUCCESS.
  destruct (Z.eqb_spec status 0); [left | right]; auto.
Qed.

(** C1 (counterexample): the wrapper does not classify the response code
    into the spec's outcomes: the codes 1 and 2 are both TPM errors, yet
    the wrapper returns different results for them. *)
Lemma get_result_not_classified :
  spec_classify 1 = spec_classify 2 /\
  fw_result (get_result_of_set_active_pcr_banks (result_table 1 1)) tt
  <> fw_result (get_result_of_set_active_pcr_banks (result_table 1 2)) tt.
Proof. split; [reflexivity | discriminate]. Qed.

(** C1 (amended): on a success status with an operation on record, the
    wrapper returns the module-written response code unchanged as
    [Some code], whatever its value, after one call of the entry point;
    so out-of-range codes are never mapped onto the documented values. *)
Theorem get_result_surfaces_raw_code :
  forall (S : Type) (this : TcgTable S) (s s' : S) (op response : u32),
    get_result_of_set_active_pcr_banks_fn this s 0 0 = (SUCCESS, op, response, s') ->
    op <> 0 ->
    get_result_of_set_active_pcr_banks this s
    = Some (Ok (Some response), s', [EP_get_result_of_set_active_pcr_banks]).
Proof.
  intros S this s s' op response Hcall Hop.
  unfold get_result_of_set_active_pcr_banks, fw_bind, fw_call, fw_ret.
  rewrite Hcall. unfold into_with_val. simpl.
  destruct (Z.eqb_spec op 0); [contradiction | reflexivity].
Qed.

Lemma get_result_surfaces_raw_code_witness :
  get_result_of_set_active_pcr_banks (result_table 1 0x1000) tt
  = Some (Ok (Some 0x1000), tt, [EP_get_result_of_set_active_pcr_banks]).
Proof.
  apply (get_result_surfaces_raw_code unit (result_table 1 0x1000) tt tt 1 0x1000);
    [reflexivity | discriminate].
Defined.

(** C2: when the entry point reports success, the wrapper returns [None]
    exactly when the module wrote [operation_present = 0], and
    [Some code] exactly when it wrote a nonzero [operation_present], the
    code being the module-written response. *)
Theorem get_result_absent_iff_no_operation :
  forall (S : Type) (this : TcgTable S) (s s' : S) (op response : u32),
    get_result_of_set_active_pcr_banks_fn this s 0 0 = (SUCCESS, op, response, s') ->
    (fw_result (get_result_of_set_active_pcr_banks this) s = Some (Ok None) <-> op = 0) /\
    (forall c : u32,
       fw_result (get_result_of_set_active_pcr_banks this) s = Some (Ok (Some c))
       <-> op <> 0 /\ c = response).
Proof.
  intros S this s s' op response Hcall.
  unfold fw_result, get_result_of_set_active_pcr_banks, fw_bind, fw_call, fw_ret.
  rewrite Hcall. unfold into_with_val. simpl.
  destruct (Z.eqb_spec op 0) as [Hop | Hop]; split.
  - split; auto.
  - intro c; split; [discriminate | intros [H _]; contradiction].
  - split; [discriminate | intro H; contradiction].
  - intro c; split.
    + intro H; injection H as <-; auto.
    + intros [_ ->]; reflexivity.
Qed.

Lemma get_result_absent_iff_no_operation_witness :
  (fw_result (get_result_of_set_active_pcr_banks (result_table 0 7)) tt
   = Some (Ok None) <-> 0 = 0) /\
  (forall c : u32,
     fw_result (get_result_of_set_active_pcr_banks (result_table 0 7)) tt
     = Some (Ok (Some c)) <-> 0 <> 0 /\ c = 7).
Proof.
  apply (get_result_absent_iff_no_operation unit (result_table 0 7) tt tt 0 7).
  reflexivity.
Defined.

(** C3 (counterexample): nothing in the wrappers keeps the previous bank
    set observable: on a firmware that applies the request at once, a
    [get_active_pcr_banks] right after a successful [set_active_pcr_banks]
    returns the requested set, not the previous one. *)
Lemma set_then_get_not_staged_by_wrapper :
  fw_result (set_then_get immediate_table 2) 1 = Some (Ok tt, Ok 2) /\ 2 <> 1.
Proof. split; [reflexivity | discriminate]. Qed.

(** C3 (amended): the wrappers stage and cache nothing: after a successful
    [set_active_pcr_banks], [get_active_pcr_banks] returns exactly what the
    firmware's get entry point reports in the state the set call left, so
    the previous set is seen only when the firmware itself stages the
    request. *)
Theorem set_then_get_passes_through :
  forall (S : Type) (this : TcgTable S) (s0 s1 : S) (requested : HashAlgorithm),
    set_active_pcr_banks_fn this s0 requested = (SUCCESS, s1) ->
    fw_result (set_then_get this requested) s0
    = Some (Ok tt,
            let '(status, banks, _) := get_active_pcr_banks_fn this s1 HashAlgorithm_empty in
            into_with_val status (fun _ => banks)).
Proof.
  intros S this s0 s1 requested Hset.
  unfold fw_result, set_then_get, set_active_pcr_banks, get_active_pcr_banks,
    fw_bind, fw_call, fw_ret.
  rewrite Hset. simpl.
  destruct (get_active_pcr_banks_fn this s1 HashAlgorithm_empty) as [[st b] s2].
  reflexivity.
Qed.

Lemma set_then_get_passes_through_witness :
  fw_result (set_then_get staging_table 2) (1, None) = Some (Ok tt, Ok 1).
Proof.
  exact (set_then_get_passes_through _ staging_table (1, None) (1, Some 2) 2 eq_refl).
Defined.

(** Field names of a struct type with the bit width of each. *)
Definition field_widths (t : Ty) : list (string * Z) :=
  map (fun '(n, f) => (n, bit_width f)) (fields_of t).

(** C4 (counterexample): the flags of [hash_log_extend_event],
    [HashLogExtendEventFlags], are a 64-bit bitmap, not a 32-bit one. *)
Lemma hash_log_extend_event_flags_not_32 :
  bit_width HashLogExtendEventFlags_ty = 64 /\
  bit_width HashLogExtendEventFlags_ty <> 32.
Proof. split; [reflexivity | discriminate]. Qed.

(** C4 (amended): [Version] is two 8-bit fields, major then minor; the
    hash-algorithm and event-log-format bitmaps are 32-bit, the
    [HashLogExtendEventFlags] bitmap 64-bit; [BootServiceCapability] has,
    in this order, an 8-bit size, two versions, the two 32-bit bitmaps, an
    8-bit presence flag, 16-bit max command and response sizes, 32-bit
    manufacturer id and PCR bank count, and the 32-bit active-bank bitmap. *)
Theorem wire_field_widths :
  field_widths Version_ty = [("major", 8); ("minor", 8)] /\
  bit_width Version_ty = 16 /\
  field_widths HashAlgorithm_ty = [("bits", 32)] /\
  field_widths EventLogFormat_ty = [("bits", 32)] /\
  field_widths HashLogExtendEventFlags_ty = [("bits", 64)] /\
  field_widths BootServiceCapability_ty =
    [("size", 8); ("structure_version", 16); ("protocol_version", 16);
     ("hash_algorithm_bitmap", 32); ("supported_event_logs", 32);
     ("present_flag", 8); ("max_command_size", 16); ("max_response_size", 16);
     ("manufacturer_id", 32); ("number_of_pcr_banks", 32);
     ("active_pcr_banks", 32)].
Proof. repeat split. Qed.

(** C5 (counterexample): [impl Tcg] has four public methods, and none of
    them is the event-log retrieval, the hash-extend or the raw command. *)
Lemma public_api_has_four_methods :
  List.length public_methods = 4%nat /\
  ~ In "get_event_log" (map method_name public_methods) /\
  ~ In "hash_log_extend_event" (map method_name public_methods) /\
  ~ In "submit_command" (map method_name public_methods).
Proof.
  split; [reflexivity |].
  simpl; repeat split; intro H; repeat (destruct H as [H | H]; [discriminate |]);
    contradiction.
Qed.

(** C5 (amended): each of the four public methods calls exactly one entry
    point of the table, the one of its own name, passing its parameters;
    [get_event_log], [hash_log_extend_event] and [submit_command] are
    entry points with no public method. *)
Theorem public_methods_call_own_entry_point :
  forall (S : Type) (this : TcgTable S) (s : S),
    trace_of (get_capability this) s = Some [EP_get_capability] /\
    trace_of (get_active_pcr_banks this) s = Some [EP_get_active_pcr_banks] /\
    (forall b : HashAlgorithm,
       set_active_pcr_banks this b s
       = let '(status, s') := set_active_pcr_banks_fn this s b in
         Some (status_into status, s', [EP_set_active_pcr_banks])) /\
    trace_of (get_result_of_set_active_pcr_banks this) s
    = Some [EP_get_result_of_set_active_pcr_banks] /\
    map method_name public_methods =
      map entry_point_name
        [EP_get_capability; EP_get_active_pcr_banks; EP_set_active_pcr_banks;
         EP_get_result_of_set_active_pcr_banks] /\
    (forall e : EntryPoint,
       existsb (String.eqb (entry_point_name e)) (map method_name public_methods) = false
       <-> In e [EP_get_event_log; EP_hash_log_extend_event; EP_submit_command]).
Proof.
  intros S this s.
  unfold trace_of, get_capability, get_active_pcr_banks, set_active_pcr_banks,
    get_result_of_set_active_pcr_banks, fw_unwrap, fw_bind, fw_call, fw_ret.
  simpl.
  destruct (get_capability_fn this s _) as [[? ?] ?].
  destruct (get_active_pcr_banks_fn this s _) as [[? ?] ?].
  destruct (get_result_of_set_active_pcr_banks_fn this s _ _) as [[[? ?] ?] ?].
  repeat split; try reflexivity.
  - intro req. destruct (set_active_pcr_banks_fn this s req); reflexivity.
  - destruct e; simpl; intuition discriminate.
  - destruct e; simpl; intuition discriminate.
Qed.

(** C6: each public method returns the value the firmware left in its
    out-parameter when the entry point reports success, and an error
    carrying the status, with no value, otherwise; none of them panics. *)
Theorem wrappers_value_or_error :
  forall (S : Type) (this : TcgTable S) (s : S),
    (exists cap0 r s',
       BootServiceCapability_default = Some cap0 /\
       get_capability this s = Some (r, s', [EP_get_capability]) /\
       let '(status, cap, s'') := get_capability_fn this s cap0 in
       s' = s'' /\ result_matches status cap r) /\
    (exists r s',
       get_active_pcr_banks this s = Some (r, s', [EP_get_active_pcr_banks]) /\
       let '(status, banks, s'') := get_active_pcr_banks_fn this s HashAlgorithm_empty in
       s' = s'' /\ result_matches status banks r) /\
    (forall b : HashAlgorithm, exists r s',
       set_active_pcr_banks this b s = Some (r, s', [EP_set_active_pcr_banks]) /\
       let '(status, s'') := set_active_pcr_banks_fn this s b in
       s' = s'' /\ result_matches status tt r) /\
    (exists r s',
       get_result_of_set_active_pcr_banks this s
       = Some (r, s', [EP_get_result_of_set_active_pcr_banks]) /\
       let '(status, op, response, s'') := get_result_of_set_active_pcr_banks_fn this s 0 0 in
       s' = s'' /\ result_matches status (if op =? 0 then None else Some response) r).
Proof.
  intros S this s.
  unfold get_capability, get_active_pcr_banks, set_active_pcr_banks,
    get_result_of_set_active_pcr_banks, status_into, fw_unwrap, fw_bind, fw_call, fw_ret.
  split; [| split; [| split]].
  - destruct BootServiceCapability_default as [cap0 |] eqn:Hd;
      [| vm_compute in Hd; discriminate Hd].
    exists cap0. simpl.
    destruct (get_capability_fn this s cap0) as [[st cap] s''].
    do 2 eexists; split; [reflexivity |].
    split; [reflexivity |]. split; [reflexivity | apply into_with_val_matches].
  - simpl. destruct (get_active_pcr_banks_fn this s _) as [[st banks] s''].
    do 2 eexists; split; [reflexivity |].
    split; [reflexivity | apply into_with_val_matches].
  - intro b. simpl. destruct (set_active_pcr_banks_fn this s b) as [st s''].
    do 2 eexists; split; [reflexivity |].
    split; [reflexivity | apply into_with_val_matches].
  - simpl. destruct (get_result_of_set_active_pcr_banks_fn this s 0 0)
      as [[[st op] response] s''].
    do 2 eexists; split; [reflexivity |].
    split; [reflexivity | apply into_with_val_matches].
Qed.

(** C7: the default capability clears the presence flag, so
    [tpm_present] is false on it, and its size field is
    [size_of::<BootServiceCapability>()]. *)
Theorem default_capability_absent_and_sized :
  exists cap : BootServiceCapability,
    BootServiceCapability_default = Some cap /\
    present_flag cap = 0 /\
    tpm_present cap = false /\
    size cap = size_of_BootServiceCapability.
Proof. eexists; repeat split. Qed.

(** C8: [tpm_present] holds exactly when the presence flag is nonzero. *)
Theorem tpm_present_iff_flag_nonzero :
  forall c : BootServiceCapability, tpm_present c = true <-> present_flag c <> 0.
Proof.
  intro c. unfold tpm_present.
  destruct (Z.eqb_spec (present_flag c) 0); simpl; split; congruence.
Qed.

(** C9: the derived order on [Version] is lexicographic on
    (major, minor). *)
Theorem version_lt_lexicographic :
  forall a b : Version,
    Version_lt a b <-> major a < major b \/ (major a = major b /\ minor a < minor b).
Proof.
  intros a b. unfold Version_lt, Version_cmp.
  destruct (Z.compare_spec (major a) (major b)) as [E | L | G].
  - rewrite Z.compare_lt_iff. lia.
  - split; [auto | reflexivity].
  - split; [discriminate | lia].
Qed.

(** C10: the encoded size of [BootServiceCapability] is at most 255, so
    [u8::try_from] succeeds, the [unwrap] in [default] does not panic, and
    default construction is total. *)
Theorem default_capability_total :
  size_of_BootServiceCapability <= 255 /\
  u8_try_from size_of_BootServiceCapability = Some size_of_BootServiceCapability /\
  BootServiceCapability_default <> None.
Proof. repeat split; [vm_compute; discriminate | discriminate]. Qed.

(** ** Further properties of the bindings *)

Lemma then_cmp_eq_iff (c1 c2 : comparison) :
  then_cmp c1 c2 = Eq <-> c1 = Eq /\ c2 = Eq.
Proof. destruct c1; simpl; intuition discriminate. Qed.

Lemma then_cmp_opp (c1 c2 : comparison) :
  then_cmp (CompOpp c1) (CompOpp c2) = CompOpp (then_cmp c1 c2).
Proof. destruct c1; reflexivity. Qed.

Lemma version_cmp_eq_helper (a b : Version) : Version_cmp a b = Eq <-> a = b.
Proof.
  destruct a as [ma na], b as [mb nb]. unfold Version_cmp; simpl.
  destruct (Z.compare_spec ma mb) as [E1 | L1 | G1];
    [destruct (Z.compare_spec na nb) as [E2 | L2 | G2] |  |];
    split; intro H; try discriminate; try (injection H; lia); subst; reflexivity.
Qed.

Lemma version_cmp_opp_helper (a b : Version) :
  Version_cmp b a = CompOpp (Version_cmp a b).
Proof.
  unfold Version_cmp.
  destruct (Z.compare_spec (major a) (major b)) as [E | L | G].
  - rewrite E, Z.compare_refl. apply Z.compare_antisym.
  - rewrite (proj2 (Z.compare_gt_iff (major b) (major a))) by lia. reflexivity.
  - rewrite (proj2 (Z.compare_lt_iff (major b) (major a))) by lia. reflexivity.
Qed.

Lemma version_lt_lex_helper (a b : Version) :
  Version_lt a b <-> major a < major b \/ (major a = major b /\ minor a < minor b).
Proof.
  unfold Version_lt, Version_cmp.
  destruct (Z.compare_spec (major a) (major b)).
  - rewrite Z.compare_lt_iff. lia.
  - split; [auto | reflexivity].
  - split; [discriminate | lia].
Qed.



(** X2: when the firmware reports success without writing the bitmap,
    [get_active_pcr_banks] returns the empty bank set. *)
Theorem get_active_pcr_banks_unwritten_is_empty :
  forall (S : Type) (this : TcgTable S) (s s' : S),
    (forall b, get_active_pcr_banks_fn this s b = (SUCCESS, b, s')) ->
    get_active_pcr_banks this s = Some (Ok 0, s', [EP_get_active_pcr_banks]).
Proof.
  intros S this s s' Hfw.
  unfold get_active_pcr_banks, fw_bind, fw_call, fw_ret.
  rewrite Hfw. reflexivity.
Qed.

Lemma get_active_pcr_banks_unwritten_is_empty_witness :
  get_active_pcr_banks silent_table tt = Some (Ok 0, tt, [EP_get_active_pcr_banks]).
Proof.
  apply (get_active_pcr_banks_unwritten_is_empty unit silent_table tt tt).
  intro b; reflexivity.
Defined.

(** X3: when the firmware reports success without writing either
    out-parameter, [get_result_of_set_active_pcr_banks] returns [None]:
    [operation_present] starts at 0. *)
Theorem get_result_unwritten_is_none :
  forall (S : Type) (this : TcgTable S) (s s' : S),
    (forall op response,
       get_result_of_set_active_pcr_banks_fn this s op response = (SUCCESS, op, response, s')) ->
    get_result_of_set_active_pcr_banks this s
    = Some (Ok None, s', [EP_get_result_of_set_active_pcr_banks]).
Proof.
  intros S this s s' Hfw.
  unfold get_result_of_set_active_pcr_banks, fw_bind, fw_call, fw_ret.
  rewrite Hfw. reflexivity.
Qed.

Lemma get_result_unwritten_is_none_witness :
  get_result_of_set_active_pcr_banks silent_table tt
  = Some (Ok None, tt, [EP_get_result_of_set_active_pcr_banks]).
Proof.
  apply (get_result_unwritten_is_none unit silent_table tt tt).
  intros op response; reflexivity.
Defined.

(** X4: the derived [Ord] on [Version] answers [Equal] exactly for equal
    versions, agreeing with the derived [Eq]. *)
Theorem version_cmp_eq_iff_equal :
  forall a b : Version, Version_cmp a b = Eq <-> a = b.
Proof. intros a b. apply version_cmp_eq_helper. Qed.

(** X5: comparing two versions the other way round gives the opposite
    answer. *)
Theorem version_cmp_antisym :
  forall a b : Version, Version_cmp b a = CompOpp (Version_cmp a b).
Proof. intros a b. apply version_cmp_opp_helper. Qed.

(** X6: the strict order on versions is transitive. *)
Theorem version_lt_trans :
  forall a b c : Version, Version_lt a b -> Version_lt b c -> Version_lt a c.
Proof.
  intros a b c Hab Hbc.
  apply version_lt_lex_helper in Hab, Hbc. apply version_lt_lex_helper. lia.
Qed.

Lemma version_lt_trans_witness :
  Version_lt (mkVersion 1 2) (mkVersion 1 3) /\
  Version_lt (mkVersion 1 3) (mkVersion 2 0) /\
  Version_lt (mkVersion 1 2) (mkVersion 2 0).
Proof.
  split; [reflexivity | split; [reflexivity |]].
  apply (version_lt_trans (mkVersion 1 2) (mkVersion 1 3) (mkVersion 2 0));
    reflexivity.
Defined.

(** X7: the default version 0.0 is below or equal to every version whose
    components are [u8] values. *)
Theorem version_default_least :
  forall v : Version, 0 <= major v -> 0 <= minor v -> ~ Version_lt v Version_default.
Proof.
  intros v Hma Hmi H. apply version_lt_lex_helper in H. simpl in H. lia.
Qed.

Lemma version_default_least_witness :
  0 <= major (mkVersion 0 5) /\ 0 <= minor (mkVersion 0 5) /\
  ~ Version_lt (mkVersion 0 5) Version_default.
Proof.
  split; [simpl; lia | split; [simpl; lia |]].
  apply version_default_least; simpl; lia.
Defined.

(** X8: the derived order on capabilities looks at the private [size]
    field first: a capability with a smaller size field compares below
    another whatever their other fields. *)
Theorem capability_cmp_size_first :
  forall a b : BootServiceCapability,
    size a < size b -> BootServiceCapability_cmp a b = Lt.
Proof.
  intros a b H. unfold BootServiceCapability_cmp.
  rewrite (proj2 (Z.compare_lt_iff (size a) (size b)) H). reflexivity.
Qed.

Lemma capability_cmp_size_first_witness :
  exists a b : BootServiceCapability,
    size a < size b /\ tpm_present a = true /\ tpm_present b = false /\
    BootServiceCapability_cmp a b = Lt.
Proof.
  exists (mkBootServiceCapability 28 (mkVersion 1 1) (mkVersion 1 1) 0x1F 3 1 4096 4096 1 5 0x6),
         (mkBootServiceCapability 36 Version_default Version_default 0 0 0 0 0 0 0 0).
  split; [simpl; lia |]. split; [reflexivity |]. split; [reflexivity |].
  apply capability_cmp_size_first; simpl; lia.
Defined.

(** X9: the derived [Ord] on capabilities answers [Equal] exactly for
    capabilities equal in every field, agreeing with the derived [Eq]. *)
Theorem capability_cmp_eq_iff_equal :
  forall a b : BootServiceCapability, BootServiceCapability_cmp a b = Eq <-> a = b.
Proof.
  intros [] []. unfold BootServiceCapability_cmp; simpl.
  rewrite !then_cmp_eq_iff, !Z.compare_eq_iff, !version_cmp_eq_helper.
  split.
  - intros H. decompose [and] H. subst. reflexivity.
  - intros H. injection H. intros. subst. repeat split.
Qed.

(** X10: comparing two capabilities the other way round gives the
    opposite answer. *)
Theorem capability_cmp_antisym :
  forall a b : BootServiceCapability,
    BootServiceCapability_cmp b a = CompOpp (BootServiceCapability_cmp a b).
Proof.
  intros a b. unfold BootServiceCapability_cmp.
  rewrite (Z.compare_antisym (size a)), (version_cmp_opp_helper (structure_version a)),
    (version_cmp_opp_helper (protocol_version a)),
    (Z.compare_antisym (hash_algorithm_bitmap a)), (Z.compare_antisym (supported_event_logs a)),
    (Z.compare_antisym (present_flag a)), (Z.compare_antisym (max_command_size a)),
    (Z.compare_antisym (max_response_size a)), (Z.compare_antisym (manufacturer_id a)),
    (Z.compare_antisym (number_of_pcr_banks a)), (Z.compare_antisym (active_pcr_banks a)).
  rewrite !then_cmp_opp. reflexivity.
Qed.

(** X11: under [repr(C)] the capability fields sit at byte offsets 0, 1,
    3, 8, 12, 16, 18, 20, 24, 28 and 32; the structure is 36 bytes for 30
    bytes of fields, with padding after [protocol_version],
    [present_flag] and [max_response_size]: it is not packed. *)
Theorem capability_field_offsets :
  field_offsets BootServiceCapability_ty =
    [("size", 0); ("structure_version", 1); ("protocol_version", 3);
     ("hash_algorithm_bitmap", 8); ("supported_event_logs", 12);
     ("present_flag", 16); ("max_command_size", 18); ("max_response_size", 20);
     ("manufacturer_id", 24); ("number_of_pcr_banks", 28);
     ("active_pcr_banks", 32)] /\
  size_of_BootServiceCapability = 36 /\
  fields_size BootServiceCapability_ty = 30 /\
  ty_align BootServiceCapability_ty = 4.
Proof. repeat split. Qed.
